(** * debug_wasm.py: a subprocess wrapper and its printed report

    The script runs one external command with [subprocess.run], capturing
    both output streams as text, and prints three labelled blocks.  The
    development below embeds

    - Python's [print] and f-string integer formatting,
    - [subprocess.run(args, capture_output=True, text=True, cwd=...)] over an
      explicit operating-system state (file system, executable search,
      child programs, process table),
    - the script itself, in a small state-and-exception monad, and the
      interpreter's treatment of a finished or failed script, on a standard
      output that takes every write and on one that may refuse,

    and proves the properties of the printed report and of the runner. *)

From Stdlib Require Import String Ascii ZArith List Lia Bool.
From Stdlib Require Import Numbers.DecimalString Numbers.DecimalZ Numbers.DecimalPos.
Import ListNotations.

Local Open Scope string_scope.
Local Open Scope Z_scope.

(** ** Text *)

(** The line feed and carriage return characters. *)
Definition LF : ascii := ascii_of_nat 10.
Definition CR : ascii := ascii_of_nat 13.

(** ["\n"] and ["\r"], ["\r\n"] as one-line strings. *)
Definition nl : string := String LF EmptyString.
Definition cr : string := String CR EmptyString.
Definition crlf : string := String CR nl.

(** [str(n)] / [f"{n}"] for a Python [int]: signed decimal, no padding. *)
Definition str_int (n : Z) : string := NilZero.string_of_int (Z.to_int n).

(** [s.startswith(p)]. *)
Fixpoint startswith (p s : string) : bool :=
  match p, s with
  | EmptyString, _ => true
  | String _ _, EmptyString => false
  | String a p', String b s' => Ascii.eqb a b && startswith p' s'
  end.

(** [needle in hay]: some suffix of [hay] starts with [needle]. *)
Fixpoint contains (needle hay : string) : bool :=
  startswith needle hay ||
  match hay with
  | EmptyString => false
  | String _ hay' => contains needle hay'
  end.

(** The same as a proposition: [hay = pre + needle + post]. *)
Definition Substring (needle hay : string) : Prop :=
  exists pre post, hay = pre ++ needle ++ post.

(** [c in s] for one character. *)
Fixpoint has_char (c : ascii) (s : string) : bool :=
  match s with
  | EmptyString => false
  | String d s' => Ascii.eqb c d || has_char c s'
  end.

(** [s.replace(old, new)] for a non-empty [old], scanning left to right
    without overlap.  [skip] counts the characters of a match that are still
    to be dropped. *)
Fixpoint replace_from (old new s : string) (skip : nat) : string :=
  match s with
  | EmptyString => EmptyString
  | String c s' =>
      match skip with
      | S k => replace_from old new s' k
      | O =>
          if startswith old s
          then new ++ replace_from old new s' (Nat.pred (String.length old))
          else String c (replace_from old new s' O)
      end
  end.

Definition replace (old new s : string) : string := replace_from old new s O.

(** ** The wrapper's own output *)

Inductive Stream : Type := Stdout | Stderr.

(** One write to one of the wrapper's two output streams. *)
Record Event : Type := Emit { fd : Stream; text : string }.

Definition is_stdout (e : Event) : bool :=
  match fd e with Stdout => true | Stderr => false end.

(** Everything written to stream [f], in order. *)
Fixpoint written (f : Stream) (tr : list Event) : string :=
  match tr with
  | [] => EmptyString
  | e :: tr' =>
      match f, fd e with
      | Stdout, Stdout | Stderr, Stderr => text e ++ written f tr'
      | _, _ => written f tr'
      end
  end.

(** ** The operating system *)

(** What a path names. *)
Inductive PathKind : Type := Missing | Directory | Regular | Inaccessible.

(** How a child program ends, as its parent sees it through the two pipes.
    [Exits]: it exits, having written [out] and [err] (raw bytes), both
    pipes reach end of file, and the machine is left in state [after].
    [ExitsPipeHeld]: it exits, but something it started keeps a pipe open
    for ever.  [Hangs]: it never exits. *)
Inductive ChildOutcome (M : Type) : Type :=
| Exits (out err : string) (code : Z) (after : M)
| ExitsPipeHeld (code : Z) (after : M)
| Hangs.
Arguments Exits {M} out err code after.
Arguments ExitsPipeHeld {M} code after.
Arguments Hangs {M}.

(** A program: from its argument vector, working directory, process id and
    the machine state it starts in, to its outcome. *)
Definition Program (M : Type) : Type :=
  list string -> string -> nat -> M -> ChildOutcome M.

(** The exceptions of this development: those [subprocess.run] raises here,
    and the two a write to standard output can end in. *)
Inductive PyException : Type :=
| IndexError
| FileNotFoundError (filename : string)
| NotADirectoryError (filename : string)
| PermissionError (filename : string)
| UnicodeDecodeError
| UnicodeEncodeError
| BrokenPipeError.


Definition CaptureError (e : PyException) : bool :=
  match e with UnicodeDecodeError => true | _ => false end.

(** The platform the script runs on, over machine states [M]: path lookup,
    executable search (from a working directory), whether an executable
    that cannot be run is there but forbidden, the locale's strict decoder
    of captured bytes, and the text the interpreter writes to standard error
    for an exception it reports.  Strings stand for C strings: none holds a
    NUL character. *)
Record Platform (M : Type) : Type := {
  lookup_path : M -> string -> PathKind;
  resolve : M -> string -> string -> option (Program M);
  exec_denied : M -> string -> string -> bool;
  locale_decode : string -> option string;
  traceback : PyException -> string
}.
Arguments lookup_path {M}.
Arguments resolve {M}.
Arguments exec_denied {M}.
Arguments locale_decode {M}.
Arguments traceback {M}.

(** The state of the world: the machine, the number of child processes
    created so far (also the next process id), and the number of children
    that are created and not yet waited for. *)
Record World (M : Type) : Type := {
  machine : M;
  launched : nat;
  live : nat
}.
Arguments machine {M}.
Arguments launched {M}.
Arguments live {M}.

(** ** subprocess *)

(** [subprocess.CompletedProcess]. *)
Record CompletedProcess : Type := {
  args : list string;
  returncode : Z;
  stdout : string;
  stderr : string
}.

(** [Popen._translate_newlines]: decode, then ["\r\n"] and ["\r"] become
    ["\n"] (text mode reads with universal newlines). *)
Definition translate_newlines {M} (P : Platform M) (data : string)
  : option string :=
  match locale_decode P data with
  | Some s => Some (replace cr nl (replace crlf nl s))
  | None => None
  end.

(** ** A monad for the script: state, exceptions and blocking *)

(** The state a statement runs in: the world and what the wrapper has
    written so far. *)
Record Proc (M : Type) : Type := {
  world : World M;
  trace : list Event
}.
Arguments world {M}.
Arguments trace {M}.

(** A statement finishes with a value, raises, or never returns. *)
Inductive Result (A : Type) : Type :=
| Normal (a : A)
| Raised (e : PyException)
| Blocked.
Arguments Normal {A} a.
Arguments Raised {A} e.
Arguments Blocked {A}.

Definition Py (M A : Type) : Type := Proc M -> Proc M * Result A.

Definition ret {M A} (a : A) : Py M A := fun p => (p, Normal a).

Definition bind {M A B} (c : Py M A) (k : A -> Py M B) : Py M B :=
  fun p =>
    match c p with
    | (p', Normal a) => k a p'
    | (p', Raised e) => (p', Raised e)
    | (p', Blocked) => (p', Blocked)
    end.

Declare Scope py_scope.
Delimit Scope py_scope with py.
Notation "x <- c ;; k" := (bind c (fun x => k))
  (at level 61, c at next level, right associativity) : py_scope.
Notation "c ;; k" := (bind c (fun _ => k))
  (at level 61, right associativity) : py_scope.

(** [print(s)] on a standard output that takes every write: [s] and a
    newline are appended to what was written, the two taken as one write.
    ([print_on] below is [print] on a standard output that may refuse.) *)
Definition print {M} (s : string) : Py M unit :=
  fun p =>
    ({| world := world p;
        trace := trace p ++ [Emit Stdout (s ++ nl)] |}, Normal tt).

(** Lines 6 to 8: [subprocess.run(argv, capture_output=True, text=True,
    cwd=cwd)].  An empty [argv] has no [argv[0]] and fails before anything
    else.  Otherwise a child process is created first; it is that child
    which enters the working directory and then looks for the executable,
    and when either fails the child reports the error to its parent and is
    waited for, the command never having run.  The call has no timeout: it
    reads both pipes to their end and only then waits for the child, so it
    never returns while a pipe is held open.  With [text=True]
    both captured streams are then decoded by [translate_newlines].  There
    is no [check=True]: the exit code is returned as it is. *)
Definition subprocess_run {M} (P : Platform M) (argv : list string)
  (cwd : string) : Py M CompletedProcess :=
  fun p =>
    let w := world p in
    let failed := {| world := {| machine := machine w;
                                 launched := S (launched w);
                                 live := live w |};
                     trace := trace p |} in
    match argv with
    | [] => (p, Raised IndexError)
    | exe :: _ =>
        match lookup_path P (machine w) cwd with
        | Missing => (failed, Raised (FileNotFoundError cwd))
        | Regular => (failed, Raised (NotADirectoryError cwd))
        | Inaccessible => (failed, Raised (PermissionError cwd))
        | Directory =>
            match resolve P (machine w) cwd exe with
            | None =>
                if exec_denied P (machine w) cwd exe
                then (failed, Raised (PermissionError exe))
                else (failed, Raised (FileNotFoundError exe))
            | Some prog =>
                match prog argv cwd (launched w) (machine w) with
                | Hangs =>
                    ({| world := {| machine := machine w;
                                    launched := S (launched w);
                                    live := S (live w) |};
                        trace := trace p |}, Blocked)
                | ExitsPipeHeld _ after =>
                    ({| world := {| machine := after;
                                    launched := S (launched w);
                                    live := S (live w) |};
                        trace := trace p |}, Blocked)
                | Exits out err code after =>
                    let p' := {| world := {| machine := after;
                                             launched := S (launched w);
                                             live := live w |};
                                 trace := trace p |} in
                    match translate_newlines P out,
                          translate_newlines P err with
                    | Some o, Some e =>
                        (p', Normal {| args := argv; returncode := code;
                                       stdout := o; stderr := e |})
                    | _, _ => (p', Raised UnicodeDecodeError)
                    end
                end
            end
        end
    end.

(** ** The script *)

Local Open Scope py_scope.

(** Lines 10 to 14: the report of a result. *)
Definition report {M} (result : CompletedProcess) : Py M unit :=
  print "STDOUT:" ;;
  print (stdout result) ;;
  print (nl ++ "STDERR:") ;;
  print (stderr result) ;;
  print (nl ++ "Return code: " ++ str_int (returncode result)).

(** The whole script, over its two literals. *)
Definition script {M} (P : Platform M) (argv : list string) (cwd : string)
  : Py M unit :=
  result <- subprocess_run P argv cwd ;;
  report result.

(** The literals of the source. *)
Definition cargo_test : list string :=
  ["cargo"; "test"; "stdlib::numeric_ops::tests::test_add"; "--";
   "--nocapture"].

Definition clean_language_dir : string :=
  "/Users/earcandy/Documents/Dev/Clean Language".

Definition debug_wasm {M} (P : Platform M) : Py M unit :=
  script P cargo_test clean_language_dir.

Local Close Scope py_scope.

(** ** The interpreter *)

(** How the wrapper's process ends. *)
Inductive Termination : Type :=
| ExitStatus (n : Z)
| NeverExits.

Record Run (M : Type) : Type := {
  final : World M;
  output : list Event;
  termination : Termination
}.
Arguments final {M}.
Arguments output {M}.
Arguments termination {M}.

(** [python3 script] with a standard output that takes every write and is
    flushed at exit, and no signal sent to the wrapper: the script starts
    with nothing written.  When it runs to its end the process exits with
    status 0; an exception nobody catches has its traceback written to
    standard error and the status is 1; a script that blocks never exits.
    ([python3_on] below is the interpreter on any standard output.) *)
Definition python3 {M} (P : Platform M) (body : Py M unit) (w : World M)
  : Run M :=
  match body {| world := w; trace := [] |} with
  | (p, Normal _) =>
      {| final := world p; output := trace p; termination := ExitStatus 0 |}
  | (p, Raised e) =>
      {| final := world p;
         output := trace p ++ [Emit Stderr (traceback P e)];
         termination := ExitStatus 1 |}
  | (p, Blocked) =>
      {| final := world p; output := trace p; termination := NeverExits |}
  end.

(** ** A standard output that may refuse *)

(** What the wrapper's standard output does with what is written to it. *)
Inductive Sink : Type :=
| Healthy
  (** every write is taken, and flushed at exit *)
| PrintRaises (k : nat) (e : PyException)
  (** the write of the print number [k], counting from 0, raises [e]; the
      prints before it are taken, and flushed at exit *)
| FlushFails.
  (** writes are buffered and the flush at exit fails *)

(** How many prints have been written. *)
Definition prints_done (tr : list Event) : nat :=
  List.length (filter is_stdout tr).

(** [print(s)] on a standard output [sink]. *)
Definition print_on {M} (sink : Sink) (s : string) : Py M unit :=
  fun p =>
    match sink with
    | PrintRaises k e =>
        if Nat.eqb (prints_done (trace p)) k then (p, Raised e)
        else print s p
    | Healthy | FlushFails => print s p
    end.

Local Open Scope py_scope.

(** Lines 10 to 14 again, on a standard output [sink]. *)
Definition report_on {M} (sink : Sink) (result : CompletedProcess)
  : Py M unit :=
  print_on sink "STDOUT:" ;;
  print_on sink (stdout result) ;;
  print_on sink (nl ++ "STDERR:") ;;
  print_on sink (stderr result) ;;
  print_on sink (nl ++ "Return code: " ++ str_int (returncode result)).

Definition script_on {M} (sink : Sink) (P : Platform M) (argv : list string)
  (cwd : string) : Py M unit :=
  result <- subprocess_run P argv cwd ;;
  report_on sink result.

Local Close Scope py_scope.

(** [python3 script] on a standard output [sink].  A flush that fails at
    exit, when something was written, is reported on standard error and
    makes the status 120, whatever it was. *)
Definition python3_on {M} (sink : Sink) (P : Platform M) (body : Py M unit)
  (w : World M) : Run M :=
  let r := python3 P body w in
  match sink, termination r with
  | FlushFails, ExitStatus _ =>
      if existsb is_stdout (output r)
      then {| final := final r;
              output := output r ++ [Emit Stderr (traceback P BrokenPipeError)];
              termination := ExitStatus 120 |}
      else r
  | _, _ => r
  end.

(** The wrapper's process, for the script on [argv] and [cwd]. *)
Definition run_on {M} (sink : Sink) (P : Platform M) (argv : list string)
  (cwd : string) (w : World M) : Run M :=
  python3_on sink P (script_on sink P argv cwd) w.

(** The result of the runner alone, in a world. *)
Definition runner {M} (P : Platform M) (argv : list string) (cwd : string)
  (w : World M) : World M * Result CompletedProcess :=
  let (p, r) := subprocess_run P argv cwd {| world := w; trace := [] |} in
  (world p, r).

(** The writes of the report, one for each [print], read off a run of
    [report] from an empty trace. *)
Definition report_writes (result : CompletedProcess) : list Event :=
  trace (fst (report (M := unit) result
                {| world := {| machine := tt; launched := O; live := O |};
                   trace := [] |})).

(** The text of the report, as standard output shows it. *)
Definition report_text (result : CompletedProcess) : string :=
  written Stdout (report_writes result).

(** What the wrapper's process writes to each of its streams when the script
    is run on [argv] and [cwd] in world [w], on a standard output that takes
    every write. *)
Definition wrapper_stdout {M} (P : Platform M) (argv : list string)
  (cwd : string) (w : World M) : string :=
  written Stdout (output (python3 P (script P argv cwd) w)).

Definition wrapper_stderr {M} (P : Platform M) (argv : list string)
  (cwd : string) (w : World M) : string :=
  written Stderr (output (python3 P (script P argv cwd) w)).


(** ** A small POSIX machine to run the script on *)

Module Posix.

(** A machine is its file system: the paths that exist and their kinds. *)
Definition Fs : Type := list (string * PathKind).

Fixpoint kind_of (fs : Fs) (path : string) : PathKind :=
  match fs with
  | [] => Missing
  | (q, k) :: fs' => if String.eqb q path then k else kind_of fs' path
  end.

(** [" ".join(l)]. *)
Fixpoint join_spaces (l : list string) : string :=
  match l with
  | [] => EmptyString
  | [a] => a
  | a :: l' => a ++ " " ++ join_spaces l'
  end.

(** [echo]: its arguments, a newline, status 0. *)
Definition echo : Program Fs :=
  fun argv _ _ fs => Exits (join_spaces (tl argv) ++ nl) EmptyString 0 fs.

(** [printf '%s']: its first argument as it is, no newline, status 0. *)
Definition printf_s : Program Fs :=
  fun argv _ _ fs => Exits (hd EmptyString (tl argv)) EmptyString 0 fs.

(** [false]: nothing written, status 1. *)
Definition false_ : Program Fs :=
  fun _ _ _ fs => Exits EmptyString EmptyString 1 fs.

(** [ls path]: the path when it exists; a complaint on standard error and
    status 1 when it does not. *)
Definition ls : Program Fs :=
  fun argv _ _ fs =>
    let path := hd "." (tl argv) in
    match kind_of fs path with
    | Missing =>
        Exits EmptyString
          ("ls: " ++ path ++ ": No such file or directory" ++ nl) 1 fs
    | _ => Exits (path ++ nl) EmptyString 0 fs
    end.

(** [yes]: never exits. *)
Definition yes : Program Fs := fun _ _ _ _ => Hangs.

(** [mkdir path]: creates the directory; status 1 when the path exists. *)
Definition mkdir : Program Fs :=
  fun argv _ _ fs =>
    let path := hd EmptyString (tl argv) in
    match kind_of fs path with
    | Missing => Exits EmptyString EmptyString 0 ((path, Directory) :: fs)
    | _ => Exits EmptyString ("mkdir: " ++ path ++ ": File exists" ++ nl) 1 fs
    end.

(** [sh -c 'sleep infinity & exit 3']: exits with status 3 and leaves a
    process that holds its pipes. *)
Definition daemon : Program Fs := fun _ _ _ fs => ExitsPipeHeld 3 fs.

(** [sh -c 'echo $$']: prints its own process id. *)
Definition echo_pid : Program Fs :=
  fun _ _ pid fs => Exits (str_int (Z.of_nat pid) ++ nl) EmptyString 0 fs.

Definition on_path (exe : string) : option (Program Fs) :=
  if String.eqb exe "echo" then Some echo
  else if String.eqb exe "printf" then Some printf_s
  else if String.eqb exe "false" then Some false_
  else if String.eqb exe "ls" then Some ls
  else if String.eqb exe "yes" then Some yes
  else if String.eqb exe "mkdir" then Some mkdir
  else if String.eqb exe "echo_pid" then Some echo_pid
  else if String.eqb exe "daemon" then Some daemon
  else None.

(** Strict ASCII: a byte of 128 or more does not decode. *)
Fixpoint is_ascii (s : string) : bool :=
  match s with
  | EmptyString => true
  | String c s' => (nat_of_ascii c <? 128)%nat && is_ascii s'
  end.

Definition decode_ascii (s : string) : option string :=
  if is_ascii s then Some s else None.

Definition platform : Platform Fs := {|
  lookup_path := kind_of;
  resolve := fun _ _ exe => on_path exe;
  exec_denied := fun fs _ exe =>
    match kind_of fs exe with Regular => true | _ => false end;
  locale_decode := decode_ascii;
  traceback := fun _ => "Traceback (most recent call last):" ++ nl
|}.

(** One byte that is not ASCII. *)
Definition latin1 : string := String (ascii_of_nat 200) EmptyString.

(** A machine with a temporary directory and one regular file. *)
Definition fs0 : Fs :=
  [("/tmp/work", Directory); ("/etc/passwd", Regular)].

Definition boot : World Fs :=
  {| machine := fs0; launched := O; live := O |}.

End Posix.

(** [s.split("\n")]: the pieces of [s] between line feeds; [cur] is the piece
    being read. *)
Fixpoint split_lines (s cur : string) : list string :=
  match s with
  | EmptyString => [cur]
  | String c s' =>
      if Ascii.eqb c LF then cur :: split_lines s' EmptyString
      else split_lines s' (cur ++ String c EmptyString)
  end.

(** How many lines of a text have something on them. *)
Definition nonblank_lines (s : string) : nat :=
  List.length
    (filter (fun l => negb (String.eqb l EmptyString))
       (split_lines s EmptyString)).

(** Reading a decimal back ([int(s)]), to say what [str_int] prints. *)
Definition parse_int (s : string) : option Z :=
  option_map Z.of_int (NilZero.int_of_string s).

(** A child program that leaves the machine as it found it. *)
Definition side_effect_free {M} (prog : Program M) : Prop :=
  forall argv cwd pid m out err code after,
    prog argv cwd pid m = Exits out err code after -> after = m.

(** A child program whose outcome does not depend on which process it is. *)
Definition deterministic {M} (prog : Program M) : Prop :=
  forall argv cwd pid pid' m, prog argv cwd pid m = prog argv cwd pid' m.

(** A statement that writes, if at all, to standard output only. *)
Definition stdout_only {M A} (c : Py M A) : Prop :=
  forall p : Proc M,
    exists added : list Event,
      trace (fst (c p)) = (trace p ++ added)%list
      /\ forallb is_stdout added = true.

(** * Properties *)

(** ** Strings *)

Section Strings.

Lemma append_assoc (a b c : string) : (a ++ b) ++ c = a ++ b ++ c.
Proof. induction a as [|x a IH]; simpl; [reflexivity | now rewrite IH]. Qed.

Lemma append_nil_r (a : string) : a ++ EmptyString = a.
Proof. induction a as [|x a IH]; simpl; [reflexivity | now rewrite IH]. Qed.

Lemma startswith_append (p t : string) : startswith p (p ++ t) = true.
Proof.
  induction p as [|x p IH]; simpl; [reflexivity|].
  now rewrite Ascii.eqb_refl, IH.
Qed.

Lemma startswith_inv (p s : string) :
  startswith p s = true -> exists t, s = p ++ t.
Proof.
  revert s; induction p as [|x p IH]; intros s H.
  - now exists s.
  - destruct s as [|y s]; simpl in H; [discriminate|].
    apply andb_true_iff in H as [Hxy Hps].
    apply Ascii.eqb_eq in Hxy; subst y.
    destruct (IH _ Hps) as [t ->]. now exists t.
Qed.

Lemma startswith_contains (p s : string) :
  startswith p s = true -> contains p s = true.
Proof. destruct s; simpl; intros ->; reflexivity. Qed.

(** [contains] decides [Substring]. *)
Lemma contains_complete (needle hay : string) :
  Substring needle hay -> contains needle hay = true.
Proof.
  intros (pre & post & ->).
  induction pre as [|x pre IH]; simpl.
  - apply startswith_contains, startswith_append.
  - rewrite IH. apply orb_true_r.
Qed.

Lemma contains_sound (needle hay : string) :
  contains needle hay = true -> Substring needle hay.
Proof.
  induction hay as [|x hay IH]; simpl; intros H.
  - rewrite orb_false_r in H.
    destruct (startswith_inv _ _ H) as [t Ht].
    now exists EmptyString, t.
  - apply orb_true_iff in H as [H | H].
    + destruct (startswith_inv _ _ H) as [t Ht].
      now exists EmptyString, t.
    + destruct (IH H) as (pre & post & ->).
      now exists (String x pre), post.
Qed.

(** A replacement whose pattern starts with a character the text lacks
    changes nothing. *)
Lemma replace_absent (c : ascii) (old' new s : string) :
  has_char c s = false -> replace (String c old') new s = s.
Proof.
  unfold replace.
  induction s as [|d s IH]; simpl; intros H; [reflexivity|].
  apply orb_false_iff in H as [Hcd Hs].
  rewrite Hcd; simpl. now rewrite IH.
Qed.

(** Text without a carriage return passes through newline translation. *)
Lemma universal_newlines_id (s : string) :
  has_char CR s = false -> replace cr nl (replace crlf nl s) = s.
Proof.
  intros H. unfold crlf, cr.
  rewrite (replace_absent CR nl nl s H).
  now apply replace_absent.
Qed.

(** [str_int] prints the decimal numeral of its argument. *)
Lemma parse_str_int (n : Z) : parse_int (str_int n) = Some n.
Proof.
  unfold parse_int, str_int.
  rewrite NilZero.isi.
  - simpl. now rewrite DecimalZ.of_to.
  - destruct n as [|p|p]; simpl; try discriminate.
    intros E; injection E as E.
    now apply DecimalPos.Unsigned.to_uint_nonnil in E.
  - destruct n as [|p|p]; simpl; try discriminate.
    intros E; injection E as E.
    now apply DecimalPos.Unsigned.to_uint_nonnil in E.
Qed.

End Strings.

(** ** The report *)

Section Report.

Context {M : Type}.

Lemma written_app (f : Stream) (a b : list Event) :
  written f (a ++ b) = written f a ++ written f b.
Proof.
  induction a as [|e a IH]; simpl; [reflexivity|].
  destruct f, (fd e); rewrite IH; auto using append_assoc.
Qed.

(** [print] appends one write and goes on. *)
Lemma print_run (s : string) (p : Proc M) :
  print s p =
  ({| world := world p; trace := trace p ++ [Emit Stdout (s ++ nl)] |},
   Normal tt).
Proof. reflexivity. Qed.

(** The report appends its five writes to whatever was written before,
    leaves the world alone and never raises. *)
Lemma report_run (r : CompletedProcess) (p : Proc M) :
  report r p =
  ({| world := world p; trace := trace p ++ report_writes r |}, Normal tt).
Proof.
  unfold report, report_writes, bind, print; simpl.
  now rewrite <- !app_assoc.
Qed.

(** The text of the report, block by block. *)
Lemma report_text_blocks (r : CompletedProcess) :
  report_text r =
    "STDOUT:" ++ nl ++ stdout r ++ nl ++ nl ++ "STDERR:" ++ nl ++
    stderr r ++ nl ++ nl ++ "Return code: " ++ str_int (returncode r) ++ nl.
Proof.
  unfold report_text, report, bind, print; simpl.
  rewrite !append_assoc. reflexivity.
Qed.

Lemma report_writes_stdout (r : CompletedProcess) :
  forallb is_stdout (report_writes r) = true.
Proof. reflexivity. Qed.

End Report.

(** ** The runner and the interpreter *)

Section Runner.

Context {M : Type} (P : Platform M).

(** [subprocess.run] writes nothing of its own, and acts on the world as
    [runner] says. *)
Lemma subprocess_run_runner (argv : list string) (cwd : string)
  (p : Proc M) :
  subprocess_run P argv cwd p =
  ({| world := fst (runner P argv cwd (world p)); trace := trace p |},
   snd (runner P argv cwd (world p))).
Proof.
  unfold runner, subprocess_run; simpl.
  destruct p as [w tr]; simpl.
  destruct argv as [|exe rest]; [reflexivity|].
  destruct (lookup_path P (machine w) cwd); try reflexivity.
  destruct (resolve P (machine w) cwd exe) as [prog|];
    [|destruct (exec_denied P (machine w) cwd exe); reflexivity].
  destruct (prog (exe :: rest) cwd (launched w) (machine w))
    as [out err code after|code after|]; try reflexivity.
  destruct (translate_newlines P out); [|reflexivity].
  destruct (translate_newlines P err); reflexivity.
Qed.

(** The whole process, by what the runner does. *)
Lemma python3_script (argv : list string) (cwd : string) (w : World M) :
  python3 P (script P argv cwd) w =
  match runner P argv cwd w with
  | (w', Normal cp) =>
      {| final := w'; output := report_writes cp;
         termination := ExitStatus 0 |}
  | (w', Raised e) =>
      {| final := w'; output := [Emit Stderr (traceback P e)];
         termination := ExitStatus 1 |}
  | (w', Blocked) =>
      {| final := w'; output := []; termination := NeverExits |}
  end.
Proof.
  unfold python3, script, bind.
  rewrite subprocess_run_runner; simpl.
  destruct (runner P argv cwd w) as [w' [cp|e|]]; reflexivity.
Qed.

(** When the runner returns a result the wrapper prints its report and
    nothing else. *)
Lemma python3_prints_report (argv : list string) (cwd : string)
  (w w' : World M) (cp : CompletedProcess) :
  runner P argv cwd w = (w', Normal cp) ->
  wrapper_stdout P argv cwd w = report_text cp
  /\ wrapper_stderr P argv cwd w = EmptyString.
Proof.
  intros R. unfold wrapper_stdout, wrapper_stderr.
  rewrite python3_script, R. split; reflexivity.
Qed.

(** A launch that succeeds, a child that exits and output that decodes
    give a completed process. *)
Lemma runner_exits (exe : string) (rest : list string) (cwd : string)
  (w : World M) (prog : Program M) (out err o e : string) (code : Z)
  (after : M) :
  lookup_path P (machine w) cwd = Directory ->
  resolve P (machine w) cwd exe = Some prog ->
  prog (exe :: rest) cwd (launched w) (machine w) =
    Exits out err code after ->
  translate_newlines P out = Some o ->
  translate_newlines P err = Some e ->
  runner P (exe :: rest) cwd w =
  ({| machine := after; launched := S (launched w); live := live w |},
   Normal {| args := exe :: rest; returncode := code;
             stdout := o; stderr := e |}).
Proof.
  intros Hd Hr Hp Ho He.
  unfold runner, subprocess_run; simpl.
  now rewrite Hd, Hr, Hp, Ho, He.
Qed.

End Runner.

(** The results of the runner, taken apart. *)
Lemma runner_normal_inv (M : Type) (P : Platform M) (argv : list string)
  (cwd : string) (w w' : World M) (cp : CompletedProcess) :
  runner P argv cwd w = (w', Normal cp) ->
  exists exe rest prog out err,
    argv = exe :: rest
    /\ lookup_path P (machine w) cwd = Directory
    /\ resolve P (machine w) cwd exe = Some prog
    /\ prog argv cwd (launched w) (machine w) =
         Exits out err (returncode cp) (machine w')
    /\ translate_newlines P out = Some (stdout cp)
    /\ translate_newlines P err = Some (stderr cp)
    /\ args cp = argv
    /\ launched w' = S (launched w)
    /\ live w' = live w.
Proof.
  unfold runner, subprocess_run; simpl.
  destruct argv as [|exe rest]; [discriminate|].
  destruct (lookup_path P (machine w) cwd) eqn:Hd; try discriminate.
  destruct (resolve P (machine w) cwd exe) as [prog|] eqn:Hr;
    [|destruct (exec_denied P (machine w) cwd exe); discriminate].
  destruct (prog (exe :: rest) cwd (launched w) (machine w))
    as [out err code after|code after|] eqn:Hp; try discriminate.
  destruct (translate_newlines P out) as [o|] eqn:Ho; [|discriminate].
  destruct (translate_newlines P err) as [e|] eqn:He; [|discriminate].
  intros E; injection E as <- <-; simpl.
  exists exe, rest, prog, out, err. repeat split; assumption.
Qed.

(** ** The printed report *)

(** C9.  For every result with fields (out, err, code) the report reads
    exactly "STDOUT:\n" + out + "\n\nSTDERR:\n" + err + "\n\nReturn code: " +
    decimal(code) + "\n": every [print] adds a newline of its own after the
    captured text, so an empty stream still gives a blank line.  The report
    is appended to whatever was written before, never raises, and the
    numeral printed reads back as the exit code. *)
Theorem report_text_exact (M : Type) (r : CompletedProcess) (p : Proc M) :
  report_text r =
    "STDOUT:" ++ nl ++ stdout r ++ nl ++ nl ++ "STDERR:" ++ nl ++
    stderr r ++ nl ++ nl ++ "Return code: " ++ str_int (returncode r) ++ nl
  /\ written Stdout (trace (fst (report r p))) =
       written Stdout (trace p) ++ report_text r
  /\ snd (report r p) = Normal tt
  /\ parse_int (str_int (returncode r)) = Some (returncode r).
Proof.
  split; [apply report_text_blocks | split; [| split]].
  - rewrite report_run; simpl. now rewrite written_app.
  - now rewrite report_run.
  - apply parse_str_int.
Qed.

(** C2, as the code has it.  For every result the reporting step makes
    exactly five writes, all to standard output, which form three labelled
    blocks in this order: the line "STDOUT:" and then the captured
    standard-output text as it is, with a newline; an empty line, the line
    "STDERR:" and then the captured standard-error text as it is, with a
    newline; an empty line and then "Return code: " with the decimal exit
    code. *)
Theorem report_five_writes (r : CompletedProcess) :
  report_writes r =
    [ Emit Stdout ("STDOUT:" ++ nl);
      Emit Stdout (stdout r ++ nl);
      Emit Stdout (nl ++ "STDERR:" ++ nl);
      Emit Stdout (stderr r ++ nl);
      Emit Stdout (nl ++ "Return code: " ++ str_int (returncode r) ++ nl) ]
  /\ List.length (report_writes r) = 5%nat
  /\ forallb is_stdout (report_writes r) = true.
Proof.
  unfold report_writes, report, bind, print; simpl.
  repeat split.
Qed.

(** C2 as worded speaks of exactly four lines or blocks.  For a result with
    two empty streams the report is five writes, seven newline-ended lines
    (eight pieces when cut at the newlines), three of them with text on
    them: no count of it is four. *)
Lemma report_not_four_blocks :
  let r := {| args := ["true"]; returncode := 0;
              stdout := EmptyString; stderr := EmptyString |} in
  List.length (report_writes r) <> 4%nat
  /\ nonblank_lines (report_text r) <> 4%nat
  /\ List.length (split_lines (report_text r) EmptyString) <> 4%nat.
Proof. vm_compute. repeat split; discriminate. Qed.

(** C1, as the code has it.  With the argument vector ["echo", "hello"] in
    an existing directory, where echo writes "hello\n" and exits 0, the run
    yields the result ("hello\n", "", 0) and the wrapper prints exactly
    "STDOUT:\nhello\n\n\nSTDERR:\n\n\nReturn code: 0\n": two empty lines after
    "hello", since the captured text ends in a newline, [print] adds one and
    the next label starts with one. *)
Theorem echo_hello_report (M : Type) (P : Platform M) (w : World M)
  (cwd : string) (prog : Program M) (after : M) :
  lookup_path P (machine w) cwd = Directory ->
  resolve P (machine w) cwd "echo" = Some prog ->
  prog ["echo"; "hello"] cwd (launched w) (machine w) =
    Exits ("hello" ++ nl) EmptyString 0 after ->
  locale_decode P ("hello" ++ nl) = Some ("hello" ++ nl) ->
  locale_decode P EmptyString = Some EmptyString ->
  snd (runner P ["echo"; "hello"] cwd w) =
    Normal {| args := ["echo"; "hello"]; returncode := 0;
              stdout := "hello" ++ nl; stderr := EmptyString |}
  /\ wrapper_stdout P ["echo"; "hello"] cwd w =
       "STDOUT:" ++ nl ++ "hello" ++ nl ++ nl ++ nl ++
       "STDERR:" ++ nl ++ nl ++ nl ++ "Return code: 0" ++ nl
  /\ wrapper_stderr P ["echo"; "hello"] cwd w = EmptyString.
Proof.
  intros Hd Hr Hp Ho He.
  assert (R : runner P ["echo"; "hello"] cwd w =
    ({| machine := after; launched := S (launched w); live := live w |},
     Normal {| args := ["echo"; "hello"]; returncode := 0;
               stdout := "hello" ++ nl; stderr := EmptyString |})).
  { apply (runner_exits P "echo" ["hello"] cwd w prog _ _ _ _ 0 after Hd Hr Hp);
      unfold translate_newlines; [rewrite Ho | rewrite He]; reflexivity. }
  unfold wrapper_stdout, wrapper_stderr.
  rewrite python3_script, R. repeat split.
Qed.

Lemma echo_hello_report_witness :
  snd (runner Posix.platform ["echo"; "hello"] "/tmp/work" Posix.boot) =
    Normal {| args := ["echo"; "hello"]; returncode := 0;
              stdout := "hello" ++ nl; stderr := EmptyString |}
  /\ wrapper_stdout Posix.platform ["echo"; "hello"] "/tmp/work" Posix.boot =
       "STDOUT:" ++ nl ++ "hello" ++ nl ++ nl ++ nl ++
       "STDERR:" ++ nl ++ nl ++ nl ++ "Return code: 0" ++ nl
  /\ wrapper_stderr Posix.platform ["echo"; "hello"] "/tmp/work" Posix.boot =
       EmptyString.
Proof.
  apply (echo_hello_report Posix.Fs Posix.platform Posix.boot "/tmp/work"
           Posix.echo Posix.fs0); reflexivity.
Defined.

(** C1 as worded: the same run does yield ("hello\n", "", 0), but what is
    printed is not the block with a single empty line after "hello". *)
Lemma echo_hello_not_spec_block :
  snd (runner Posix.platform ["echo"; "hello"] "/tmp/work" Posix.boot) =
    Normal {| args := ["echo"; "hello"]; returncode := 0;
              stdout := "hello" ++ nl; stderr := EmptyString |}
  /\ wrapper_stdout Posix.platform ["echo"; "hello"] "/tmp/work" Posix.boot <>
       "STDOUT:" ++ nl ++ "hello" ++ nl ++ nl ++
       "STDERR:" ++ nl ++ nl ++ nl ++ "Return code: 0" ++ nl.
Proof. split; [reflexivity | vm_compute; discriminate]. Qed.

(** ** The script on any standard output *)

Section Sinks.

Context {M : Type} (P : Platform M).

(** On a healthy standard output the general interpreter is [python3]. *)
Lemma run_on_healthy (argv : list string) (cwd : string) (w : World M) :
  run_on Healthy P argv cwd w = python3 P (script P argv cwd) w.
Proof. reflexivity. Qed.

(** When the runner raises, no print is reached and the standard output
    plays no part. *)
Lemma run_on_raised (sink : Sink) (argv : list string) (cwd : string)
  (w w' : World M) (e : PyException) :
  runner P argv cwd w = (w', Raised e) ->
  run_on sink P argv cwd w =
  {| final := w'; output := [Emit Stderr (traceback P e)];
     termination := ExitStatus 1 |}.
Proof.
  intros R. unfold run_on, python3_on, python3, script_on, bind.
  rewrite subprocess_run_runner; simpl. rewrite R; simpl.
  destruct sink; reflexivity.
Qed.

(** When the runner returns and the flush at exit fails. *)
Lemma run_on_flush_fails (argv : list string) (cwd : string)
  (w w' : World M) (cp : CompletedProcess) :
  runner P argv cwd w = (w', Normal cp) ->
  run_on FlushFails P argv cwd w =
  {| final := w';
     output := report_writes cp ++ [Emit Stderr (traceback P BrokenPipeError)];
     termination := ExitStatus 120 |}.
Proof.
  intros R. unfold run_on, python3_on, python3, script_on, bind.
  rewrite subprocess_run_runner; simpl. rewrite R. reflexivity.
Qed.

(** When the runner returns and print number [k] raises: the prints before
    it are written, then the traceback; a [k] past the last print changes
    nothing. *)
Lemma run_on_print_raises (k : nat) (e : PyException) (argv : list string)
  (cwd : string) (w w' : World M) (cp : CompletedProcess) :
  runner P argv cwd w = (w', Normal cp) ->
  run_on (PrintRaises k e) P argv cwd w =
  if (k <? 5)%nat
  then {| final := w';
          output := firstn k (report_writes cp) ++
                    [Emit Stderr (traceback P e)];
          termination := ExitStatus 1 |}
  else {| final := w'; output := report_writes cp;
          termination := ExitStatus 0 |}.
Proof.
  intros R. unfold run_on, python3_on, python3, script_on, bind.
  rewrite subprocess_run_runner; simpl. rewrite R.
  destruct k as [|[|[|[|[|k]]]]]; reflexivity.
Qed.

(** Statements that write to standard output only. *)
Lemma stdout_only_print_on (sink : Sink) (s : string) :
  stdout_only (M := M) (print_on sink s).
Proof.
  intros p. unfold print_on.
  destruct sink as [|k e|];
    try (exists [Emit Stdout (s ++ nl)]; split; reflexivity).
  destruct (Nat.eqb (prints_done (trace p)) k).
  - exists []. now rewrite app_nil_r.
  - exists [Emit Stdout (s ++ nl)]; split; reflexivity.
Qed.

Lemma stdout_only_bind (A B : Type) (c : Py M A) (k : A -> Py M B) :
  stdout_only c -> (forall a, stdout_only (k a)) -> stdout_only (bind c k).
Proof.
  intros Hc Hk p. unfold bind.
  destruct (Hc p) as (a1 & E1 & S1).
  destruct (c p) as [p1 [a|e|]]; simpl in E1.
  - destruct (Hk a p1) as (a2 & E2 & S2).
    exists (a1 ++ a2)%list. rewrite E2, E1, <- app_assoc, forallb_app, S1, S2.
    now split.
  - now exists a1.
  - now exists a1.
Qed.

Lemma stdout_only_subprocess_run (argv : list string) (cwd : string) :
  stdout_only (subprocess_run P argv cwd).
Proof.
  intros p. rewrite subprocess_run_runner; simpl.
  exists []. now rewrite app_nil_r.
Qed.

Lemma stdout_only_script_on (sink : Sink) (argv : list string)
  (cwd : string) :
  stdout_only (script_on sink P argv cwd).
Proof.
  unfold script_on.
  apply stdout_only_bind; [apply stdout_only_subprocess_run|].
  intros cp. unfold report_on.
  repeat (apply stdout_only_bind; [apply stdout_only_print_on | intros _]).
  apply stdout_only_print_on.
Qed.

End Sinks.

(** ** Failures of the runner *)




(** C7, as the code has it.  With an executable that is found and an
    existing working directory, the runner returns a result exactly when
    the child exits leaving both pipes closed and both its streams decode.
    The result then has the child's exit code and the whole of the two
    decoded texts, and the child has been waited for.  A child that never
    exits, or that leaves a pipe held open, blocks the call, and a stream
    that does not decode makes it raise. *)
Theorem runner_result_iff (M : Type) (P : Platform M) (exe : string)
  (rest : list string) (cwd : string) (w : World M) (prog : Program M) :
  lookup_path P (machine w) cwd = Directory ->
  resolve P (machine w) cwd exe = Some prog ->
  (forall (w' : World M) (cp : CompletedProcess),
     runner P (exe :: rest) cwd w = (w', Normal cp) <->
     exists out err after,
       prog (exe :: rest) cwd (launched w) (machine w) =
         Exits out err (returncode cp) after
       /\ translate_newlines P out = Some (stdout cp)
       /\ translate_newlines P err = Some (stderr cp)
       /\ args cp = exe :: rest
       /\ w' = {| machine := after; launched := S (launched w);
                  live := live w |})
  /\ (prog (exe :: rest) cwd (launched w) (machine w) = Hangs
      \/ (exists code after,
            prog (exe :: rest) cwd (launched w) (machine w) =
              ExitsPipeHeld code after) ->
      snd (runner P (exe :: rest) cwd w) = Blocked)
  /\ (forall out err code after,
        prog (exe :: rest) cwd (launched w) (machine w) =
          Exits out err code after ->
        translate_newlines P out = None \/ translate_newlines P err = None ->
        snd (runner P (exe :: rest) cwd w) = Raised UnicodeDecodeError).
Proof.
  intros Hd Hr. split; [|split].
  - intros w' cp. split.
    + intros R.
      destruct (runner_normal_inv M P _ cwd w w' cp R)
        as (exe' & rest' & prog' & out & err & E & _ & Hr' & Hp & Ho & He
            & Ha & Hl & Hv).
      injection E as <- <-. rewrite Hr in Hr'. injection Hr' as <-.
      exists out, err, (machine w'). repeat split; try assumption.
      destruct w' as [m l v]; simpl in *. now subst.
    + intros (out & err & after & Hp & Ho & He & Ha & ->).
      rewrite (runner_exits P exe rest cwd w prog out err _ _ _ after
                 Hd Hr Hp Ho He).
      destruct cp as [a c o e]; simpl in *. now subst.
  - intros [Hp | (code & after & Hp)]; unfold runner, subprocess_run; simpl;
      now rewrite Hd, Hr, Hp.
  - intros out err code after Hp Hno.
    unfold runner, subprocess_run; simpl. rewrite Hd, Hr, Hp.
    destruct Hno as [-> | ->]; [reflexivity|].
    now destruct (translate_newlines P out).
Qed.

Lemma runner_result_iff_witness :
  runner Posix.platform ["ls"; "/tmp/work"] "/tmp/work" Posix.boot =
    ({| machine := Posix.fs0; launched := 1; live := 0 |},
     Normal {| args := ["ls"; "/tmp/work"]; returncode := 0;
               stdout := "/tmp/work" ++ nl; stderr := EmptyString |}).
Proof.
  apply (proj1 (runner_result_iff Posix.Fs Posix.platform "ls" ["/tmp/work"]
                  "/tmp/work" Posix.boot Posix.ls eq_refl eq_refl)).
  exists ("/tmp/work" ++ nl), EmptyString, Posix.fs0. repeat split.
Defined.

(** C7 as worded: two calls with an executable that is found and a working
    directory that exists, and no result.  One child never exits; the other
    exits after writing a byte that does not decode. *)
Lemma valid_call_without_result :
  Posix.kind_of Posix.fs0 "/tmp/work" = Directory
  /\ Posix.on_path "yes" = Some Posix.yes
  /\ snd (runner Posix.platform ["yes"] "/tmp/work" Posix.boot) = Blocked
  /\ Posix.on_path "printf" = Some Posix.printf_s
  /\ snd (runner Posix.platform ["printf"; Posix.latin1] "/tmp/work"
            Posix.boot) = Raised UnicodeDecodeError.
Proof. repeat split. Qed.

(** C4, as the code has it.  A child that exits with a code other than zero
    and whose two streams decode does not make the runner raise: the code
    comes back in the result, and the wrapper prints the whole report, its
    three blocks with that code in the last line, on a standard output that
    takes it. *)
Theorem nonzero_exit_is_data (M : Type) (P : Platform M) (exe : string)
  (rest : list string) (cwd : string) (w : World M) (prog : Program M)
  (out err o e : string) (code : Z) (after : M) :
  code <> 0 ->
  lookup_path P (machine w) cwd = Directory ->
  resolve P (machine w) cwd exe = Some prog ->
  prog (exe :: rest) cwd (launched w) (machine w) =
    Exits out err code after ->
  translate_newlines P out = Some o ->
  translate_newlines P err = Some e ->
  snd (runner P (exe :: rest) cwd w) =
    Normal {| args := exe :: rest; returncode := code;
              stdout := o; stderr := e |}
  /\ wrapper_stdout P (exe :: rest) cwd w =
       "STDOUT:" ++ nl ++ o ++ nl ++ nl ++ "STDERR:" ++ nl ++
       e ++ nl ++ nl ++ "Return code: " ++ str_int code ++ nl
  /\ wrapper_stderr P (exe :: rest) cwd w = EmptyString.
Proof.
  intros _ Hd Hr Hp Ho He.
  pose proof (runner_exits P exe rest cwd w prog out err o e code after
                Hd Hr Hp Ho He) as R.
  destruct (python3_prints_report P _ _ _ _ _ R) as [Hout Herr].
  rewrite R, Hout, Herr, report_text_blocks. repeat split.
Qed.

Lemma nonzero_exit_is_data_witness :
  snd (runner Posix.platform ["ls"; "/definitely/does/not/exist"]
         "/tmp/work" Posix.boot) =
    Normal {| args := ["ls"; "/definitely/does/not/exist"];
              returncode := 1;
              stdout := EmptyString;
              stderr := "ls: /definitely/does/not/exist: " ++
                        "No such file or directory" ++ nl |}
  /\ wrapper_stdout Posix.platform ["ls"; "/definitely/does/not/exist"]
       "/tmp/work" Posix.boot =
       "STDOUT:" ++ nl ++ EmptyString ++ nl ++ nl ++ "STDERR:" ++ nl ++
       ("ls: /definitely/does/not/exist: " ++
        "No such file or directory" ++ nl) ++
       nl ++ nl ++ "Return code: " ++ str_int 1 ++ nl
  /\ wrapper_stderr Posix.platform ["ls"; "/definitely/does/not/exist"]
       "/tmp/work" Posix.boot = EmptyString.
Proof.
  apply (nonzero_exit_is_data Posix.Fs Posix.platform "ls"
           ["/definitely/does/not/exist"] "/tmp/work" Posix.boot Posix.ls
           EmptyString
           ("ls: /definitely/does/not/exist: " ++
            "No such file or directory" ++ nl)
           EmptyString
           ("ls: /definitely/does/not/exist: " ++
            "No such file or directory" ++ nl)
           1 Posix.fs0);
    [discriminate | reflexivity ..].
Defined.

(** C4 as worded: a child that exits with code 1, having written a byte that
    does not decode, makes the runner raise, and no report is printed. *)
Lemma nonzero_exit_undecodable_raises :
  Posix.ls ["ls"; Posix.latin1] "/tmp/work" 0%nat Posix.fs0 =
    Exits EmptyString
      ("ls: " ++ Posix.latin1 ++ ": No such file or directory" ++ nl)
      1 Posix.fs0
  /\ snd (runner Posix.platform ["ls"; Posix.latin1] "/tmp/work" Posix.boot) =
       Raised UnicodeDecodeError
  /\ wrapper_stdout Posix.platform ["ls"; Posix.latin1] "/tmp/work"
       Posix.boot = EmptyString.
Proof. repeat split. Qed.

(** ** The wrapper's own exit status and streams *)

(** C5, as the code has it.  When the child exits, with any exit code, and
    both its streams decode, the wrapper's exit status is 0 on a standard
    output that takes the report; it is 1 when one of the five prints
    raises and 120 when the flush at exit fails.  In no case does it depend
    on the child's exit code. *)
Theorem exit_status_ignores_returncode (M : Type) (P : Platform M)
  (exe : string) (rest : list string) (cwd : string) (w : World M)
  (prog : Program M) (out err o e : string) (code : Z) (after : M) :
  lookup_path P (machine w) cwd = Directory ->
  resolve P (machine w) cwd exe = Some prog ->
  prog (exe :: rest) cwd (launched w) (machine w) =
    Exits out err code after ->
  translate_newlines P out = Some o ->
  translate_newlines P err = Some e ->
  termination (run_on Healthy P (exe :: rest) cwd w) = ExitStatus 0
  /\ termination (run_on FlushFails P (exe :: rest) cwd w) = ExitStatus 120
  /\ forall (k : nat) (x : PyException),
       termination (run_on (PrintRaises k x) P (exe :: rest) cwd w) =
       if (k <? 5)%nat then ExitStatus 1 else ExitStatus 0.
Proof.
  intros Hd Hr Hp Ho He.
  pose proof (runner_exits P exe rest cwd w prog out err o e code after
                Hd Hr Hp Ho He) as R.
  split; [|split].
  - now rewrite run_on_healthy, python3_script, R.
  - now rewrite (run_on_flush_fails P _ _ _ _ _ R).
  - intros k x. rewrite (run_on_print_raises P k x _ _ _ _ _ R).
    now destruct (k <? 5)%nat.
Qed.

Lemma exit_status_ignores_returncode_witness :
  Posix.false_ ["false"] "/tmp/work" 0%nat Posix.fs0 =
    Exits EmptyString EmptyString 1 Posix.fs0
  /\ termination (run_on Healthy Posix.platform ["false"] "/tmp/work"
                    Posix.boot) = ExitStatus 0.
Proof.
  split; [reflexivity|].
  apply (exit_status_ignores_returncode Posix.Fs Posix.platform "false" []
           "/tmp/work" Posix.boot Posix.false_ EmptyString EmptyString
           EmptyString EmptyString 1 Posix.fs0);
    reflexivity.
Defined.

(** C5 as worded: a child that exits, with code 0, and a wrapper whose exit
    status is 1, on a standard output that takes every write: the child wrote
    a byte that does not decode. *)
Lemma child_exits_wrapper_status_one :
  Posix.printf_s ["printf"; Posix.latin1] "/tmp/work" 0%nat Posix.fs0 =
    Exits Posix.latin1 EmptyString 0 Posix.fs0
  /\ termination (run_on Healthy Posix.platform ["printf"; Posix.latin1]
                    "/tmp/work" Posix.boot) = ExitStatus 1
  /\ termination (run_on Healthy Posix.platform ["printf"; Posix.latin1]
                    "/tmp/work" Posix.boot) <> ExitStatus 0.
Proof. repeat split. discriminate. Qed.

(** C10, as the code has it.  Every write the script makes, from any state
    and on any standard output, goes to standard output.  When the runner
    returns a result, whatever the child wrote and whatever its exit code,
    nothing reaches the wrapper's standard error on a standard output that
    takes the report.  When the runner raises, the interpreter writes the
    traceback of the exception to the wrapper's standard error, and nothing
    to its standard output. *)
Theorem script_writes_stdout_only (M : Type) (P : Platform M)
  (argv : list string) (cwd : string) :
  (forall (sink : Sink) (p : Proc M),
     exists added : list Event,
       trace (fst (script_on sink P argv cwd p)) = (trace p ++ added)%list
       /\ forallb is_stdout added = true)
  /\ (forall (w w' : World M) (cp : CompletedProcess),
        runner P argv cwd w = (w', Normal cp) ->
        written Stderr (output (run_on Healthy P argv cwd w)) = EmptyString
        /\ forallb is_stdout (output (run_on Healthy P argv cwd w)) = true)
  /\ (forall (sink : Sink) (w w' : World M) (e : PyException),
        runner P argv cwd w = (w', Raised e) ->
        written Stderr (output (run_on sink P argv cwd w)) = traceback P e
        /\ written Stdout (output (run_on sink P argv cwd w)) = EmptyString).
Proof.
  split; [|split].
  - intros sink. apply stdout_only_script_on.
  - intros w w' cp R. rewrite run_on_healthy, python3_script, R; simpl.
    split; reflexivity.
  - intros sink w w' e R. rewrite (run_on_raised P sink _ _ _ _ _ R); simpl.
    split; [apply append_nil_r | reflexivity].
Qed.

Lemma script_writes_stdout_only_witness :
  written Stderr
    (output (run_on Healthy Posix.platform
               ["ls"; "/definitely/does/not/exist"] "/tmp/work" Posix.boot)) =
    EmptyString
  /\ forallb is_stdout
       (output (run_on Healthy Posix.platform
                  ["ls"; "/definitely/does/not/exist"] "/tmp/work"
                  Posix.boot)) = true.
Proof.
  apply (proj1 (proj2 (script_writes_stdout_only Posix.Fs Posix.platform
                         ["ls"; "/definitely/does/not/exist"] "/tmp/work"))
           Posix.boot
           {| machine := Posix.fs0; launched := 1; live := 0 |}
           {| args := ["ls"; "/definitely/does/not/exist"]; returncode := 1;
              stdout := EmptyString;
              stderr := "ls: /definitely/does/not/exist: " ++
                        "No such file or directory" ++ nl |}).
  reflexivity.
Defined.

(** C10 as worded: a child that exits, with code 0, after writing a byte that
    does not decode; the wrapper's standard error is not empty. *)
Lemma undecodable_output_reaches_stderr :
  Posix.printf_s ["printf"; Posix.latin1] "/tmp/work" 0%nat Posix.fs0 =
    Exits Posix.latin1 EmptyString 0 Posix.fs0
  /\ wrapper_stderr Posix.platform ["printf"; Posix.latin1] "/tmp/work"
       Posix.boot <> EmptyString.
Proof. split; [reflexivity | vm_compute; discriminate]. Qed.

(** ** Running twice *)

Lemma echo_side_effect_free : side_effect_free Posix.echo.
Proof.
  intros argv cwd pid m out err code after H.
  unfold Posix.echo in H. now inversion H.
Qed.

Lemma echo_deterministic : deterministic Posix.echo.
Proof. intros argv cwd pid pid' m. reflexivity. Qed.

(** C8.  When the child program is side-effect free and deterministic and
    a first run returns a result, a second run with the same argument vector
    and working directory, in the world the first one left, returns a
    result with the same exit code and the same two texts. *)
Theorem runner_idempotent (M : Type) (P : Platform M) (exe : string)
  (rest : list string) (cwd : string) (w w1 : World M)
  (cp1 : CompletedProcess) (prog : Program M) :
  resolve P (machine w) cwd exe = Some prog ->
  side_effect_free prog ->
  deterministic prog ->
  runner P (exe :: rest) cwd w = (w1, Normal cp1) ->
  exists (w2 : World M) (cp2 : CompletedProcess),
    runner P (exe :: rest) cwd w1 = (w2, Normal cp2)
    /\ returncode cp2 = returncode cp1
    /\ stdout cp2 = stdout cp1
    /\ stderr cp2 = stderr cp1.
Proof.
  intros Hr Hpure Hdet R.
  unfold runner, subprocess_run in R; simpl in R.
  destruct (lookup_path P (machine w) cwd) eqn:Hd; try discriminate.
  rewrite Hr in R.
  destruct (prog (exe :: rest) cwd (launched w) (machine w))
    as [out err code after|code after|] eqn:Hp; try discriminate.
  destruct (translate_newlines P out) as [o|] eqn:Ho; [|discriminate].
  destruct (translate_newlines P err) as [e|] eqn:He; [|discriminate].
  injection R as <- <-.
  pose proof (Hpure _ _ _ _ _ _ _ _ Hp) as ->.
  eexists; eexists; split.
  - apply (runner_exits P exe rest cwd _ prog out err o e code (machine w));
      simpl; try assumption.
    now rewrite (Hdet _ _ _ (launched w)).
  - repeat split.
Qed.

Lemma runner_idempotent_witness :
  exists (w2 : World Posix.Fs) (cp2 : CompletedProcess),
    runner Posix.platform ["echo"; "hello"] "/tmp/work"
      {| machine := Posix.fs0; launched := 1; live := 0 |} = (w2, Normal cp2)
    /\ returncode cp2 = 0
    /\ stdout cp2 = "hello" ++ nl
    /\ stderr cp2 = EmptyString.
Proof.
  apply (runner_idempotent Posix.Fs Posix.platform "echo" ["hello"]
           "/tmp/work" Posix.boot
           {| machine := Posix.fs0; launched := 1; live := 0 |}
           {| args := ["echo"; "hello"]; returncode := 0;
              stdout := "hello" ++ nl; stderr := EmptyString |}
           Posix.echo);
    [reflexivity | exact echo_side_effect_free | exact echo_deterministic
    | reflexivity].
Defined.

(** ** A known output in the report *)

(** C6, as the code has it.  When the child writes a text S that holds no
    carriage return, and exits 0, the printed report contains
    "STDOUT:\n" + S and "Return code: 0".  (Text mode turns every "\r\n" and
    "\r" of the child's output into "\n" before the script sees it.) *)
Theorem known_output_in_report (M : Type) (P : Platform M) (exe : string)
  (rest : list string) (cwd : string) (w : World M) (prog : Program M)
  (out err S e : string) (after : M) :
  lookup_path P (machine w) cwd = Directory ->
  resolve P (machine w) cwd exe = Some prog ->
  prog (exe :: rest) cwd (launched w) (machine w) = Exits out err 0 after ->
  locale_decode P out = Some S ->
  has_char CR S = false ->
  translate_newlines P err = Some e ->
  Substring ("STDOUT:" ++ nl ++ S) (wrapper_stdout P (exe :: rest) cwd w)
  /\ Substring "Return code: 0" (wrapper_stdout P (exe :: rest) cwd w).
Proof.
  intros Hd Hr Hp HS Hcr He.
  assert (Ho : translate_newlines P out = Some S).
  { unfold translate_newlines. rewrite HS.
    now rewrite universal_newlines_id. }
  pose proof (runner_exits P exe rest cwd w prog out err S e 0 after
                Hd Hr Hp Ho He) as R.
  destruct (python3_prints_report P _ _ _ _ _ R) as [-> _].
  rewrite report_text_blocks; cbn [stdout stderr returncode].
  split.
  - exists EmptyString,
      (nl ++ nl ++ "STDERR:" ++ nl ++ e ++ nl ++ nl ++ "Return code: 0" ++ nl).
    rewrite !append_assoc. reflexivity.
  - exists ("STDOUT:" ++ nl ++ S ++ nl ++ nl ++ "STDERR:" ++ nl ++ e ++ nl ++ nl),
      nl.
    rewrite !append_assoc. reflexivity.
Qed.

Lemma known_output_in_report_witness :
  Substring ("STDOUT:" ++ nl ++ "hello" ++ nl)
    (wrapper_stdout Posix.platform ["echo"; "hello"] "/tmp/work" Posix.boot)
  /\ Substring "Return code: 0"
       (wrapper_stdout Posix.platform ["echo"; "hello"] "/tmp/work"
          Posix.boot).
Proof.
  apply (known_output_in_report Posix.Fs Posix.platform "echo" ["hello"]
           "/tmp/work" Posix.boot Posix.echo ("hello" ++ nl) EmptyString
           ("hello" ++ nl) EmptyString Posix.fs0);
    reflexivity.
Defined.

(** C6 as worded, at a child that writes "a\rb": it is found, runs in an
    existing directory, writes that text (which decodes to itself) and exits
    0; the report has "a\nb" in its place and does not contain
    "STDOUT:\n" + "a\rb". *)
Lemma carriage_return_not_in_report :
  let S := "a" ++ cr ++ "b" in
  Posix.kind_of Posix.fs0 "/tmp/work" = Directory
  /\ Posix.on_path "printf" = Some Posix.printf_s
  /\ Posix.printf_s ["printf"; S] "/tmp/work" 0%nat Posix.fs0 =
       Exits S EmptyString 0 Posix.fs0
  /\ Posix.decode_ascii S = Some S
  /\ ~ Substring ("STDOUT:" ++ nl ++ S)
         (wrapper_stdout Posix.platform ["printf"; S] "/tmp/work" Posix.boot).
Proof.
  cbv zeta. repeat (split; [reflexivity|]).
  intros H. apply contains_complete in H. vm_compute in H. discriminate.
Qed.

(** ** What the hypotheses above keep out *)

(** A child that never exits: the runner never returns, the child is left
    running and the wrapper prints nothing. *)
Example yes_blocks :
  runner Posix.platform ["yes"] "/tmp/work" Posix.boot =
    ({| machine := Posix.fs0; launched := 1; live := 1 |}, Blocked)
  /\ output (python3 Posix.platform (script Posix.platform ["yes"] "/tmp/work")
               Posix.boot) = [].
Proof. split; reflexivity. Qed.

(** A child that exits and leaves a pipe held open: the runner never
    returns either, and the child is not waited for. *)
Example daemon_blocks :
  runner Posix.platform ["daemon"] "/tmp/work" Posix.boot =
    ({| machine := Posix.fs0; launched := 1; live := 1 |}, Blocked)
  /\ termination (run_on Healthy Posix.platform ["daemon"] "/tmp/work"
                    Posix.boot) = NeverExits.
Proof. split; reflexivity. Qed.

(** A child whose output does not decode: a capture error, no report. *)
Example undecodable_output_raises :
  snd (runner Posix.platform ["printf"; Posix.latin1] "/tmp/work"
         Posix.boot) = Raised UnicodeDecodeError
  /\ CaptureError UnicodeDecodeError = true.
Proof. split; reflexivity. Qed.

(** An executable that is not found, and one that is there but may not be
    run: launch errors naming it, from a child that was created and waited
    for. *)
Example cargo_not_installed :
  runner Posix.platform cargo_test "/tmp/work" Posix.boot =
    ({| machine := Posix.fs0; launched := 1; live := 0 |},
     Raised (FileNotFoundError "cargo"))
  /\ runner Posix.platform ["/etc/passwd"] "/tmp/work" Posix.boot =
       ({| machine := Posix.fs0; launched := 1; live := 0 |},
        Raised (PermissionError "/etc/passwd")).
Proof. split; reflexivity. Qed.

(** The script as it stands, on a machine without its directory. *)
Example debug_wasm_without_its_directory :
  python3 Posix.platform (debug_wasm Posix.platform) Posix.boot =
    {| final := {| machine := Posix.fs0; launched := 1; live := 0 |};
       output := [Emit Stderr
                    (traceback Posix.platform
                       (FileNotFoundError clean_language_dir))];
       termination := ExitStatus 1 |}.
Proof. reflexivity. Qed.

(** A standard output that refuses the second print: the first line of the
    report is out, then the traceback, and the status is 1. *)
Example print_raises_mid_report :
  run_on (PrintRaises 1 UnicodeEncodeError) Posix.platform ["echo"; "hello"]
    "/tmp/work" Posix.boot =
    {| final := {| machine := Posix.fs0; launched := 1; live := 0 |};
       output := [Emit Stdout ("STDOUT:" ++ nl);
                  Emit Stderr (traceback Posix.platform UnicodeEncodeError)];
       termination := ExitStatus 1 |}.
Proof. reflexivity. Qed.

(** A standard output whose flush at exit fails: status 120. *)
Example flush_fails_status_120 :
  termination (run_on FlushFails Posix.platform ["echo"; "hello"] "/tmp/work"
                 Posix.boot) = ExitStatus 120.
Proof. reflexivity. Qed.

(** A child that prints its process id is not deterministic, and two runs
    differ. *)
Example echo_pid_runs_differ :
  snd (runner Posix.platform ["echo_pid"] "/tmp/work" Posix.boot) <>
  snd (runner Posix.platform ["echo_pid"] "/tmp/work"
         (fst (runner Posix.platform ["echo_pid"] "/tmp/work" Posix.boot))).
Proof. vm_compute. discriminate. Qed.

(** A child with a side effect: the second mkdir finds the directory. *)
Example mkdir_runs_differ :
  snd (runner Posix.platform ["mkdir"; "/tmp/new"] "/tmp/work" Posix.boot) <>
  snd (runner Posix.platform ["mkdir"; "/tmp/new"] "/tmp/work"
         (fst (runner Posix.platform ["mkdir"; "/tmp/new"] "/tmp/work"
                 Posix.boot))).
Proof. vm_compute. discriminate. Qed.

(** * Further properties of the script *)

(** ** More on strings *)

Section MoreStrings.

Lemma length_append (a b : string) :
  String.length (a ++ b) = (String.length a + String.length b)%nat.
Proof. induction a as [|x a IH]; simpl; [reflexivity | now rewrite IH]. Qed.

Lemma append_cancel_l (a x y : string) : a ++ x = a ++ y -> x = y.
Proof.
  induction a as [|c a IH]; simpl; intros H; [exact H|].
  injection H as H. auto.
Qed.

Lemma append_cancel_r (a b t : string) : a ++ t = b ++ t -> a = b.
Proof.
  revert b; induction a as [|x a IH]; intros [|y b] H; simpl in H.
  - reflexivity.
  - apply (f_equal String.length) in H; simpl in H.
    rewrite length_append in H. lia.
  - apply (f_equal String.length) in H; simpl in H.
    rewrite length_append in H. lia.
  - injection H as -> H. now rewrite (IH b H).
Qed.

Lemma has_char_append (c : ascii) (a b : string) :
  has_char c (a ++ b) = has_char c a || has_char c b.
Proof.
  induction a as [|x a IH]; simpl; [reflexivity|].
  now rewrite IH, orb_assoc.
Qed.

(** A text splits in one way only at the last occurrence of a character. *)
Lemma split_at_last (c : ascii) (a1 a2 s1 s2 : string) :
  has_char c s1 = false -> has_char c s2 = false ->
  a1 ++ String c s1 = a2 ++ String c s2 -> a1 = a2 /\ s1 = s2.
Proof.
  intros H1 H2. revert a2.
  induction a1 as [|x a1 IH]; intros [|y a2] E; simpl in E.
  - injection E as E. now split.
  - injection E as _ E. rewrite E, has_char_append in H1; simpl in H1.
    rewrite Ascii.eqb_refl, orb_true_r in H1. discriminate.
  - injection E as _ E. rewrite <- E, has_char_append in H2; simpl in H2.
    rewrite Ascii.eqb_refl, orb_true_r in H2. discriminate.
  - injection E as -> E. destruct (IH a2 E) as [-> ->]. now split.
Qed.

(** A numeral holds digits and a sign, nothing else. *)
Lemma uint_chars (c : ascii) (u : Decimal.uint) :
  has_char c "-0123456789" = false ->
  has_char c (NilEmpty.string_of_uint u) = false.
Proof.
  intros H; simpl in H.
  repeat (apply orb_false_iff in H; destruct H as [? H]).
  induction u; simpl; auto; rewrite IHu, orb_false_r; assumption.
Qed.

Lemma str_int_chars (c : ascii) (n : Z) :
  has_char c "-0123456789" = false -> has_char c (str_int n) = false.
Proof.
  intros H. pose proof (uint_chars c) as U.
  assert (Hm : Ascii.eqb c "-" = false).
  { simpl in H. now apply orb_false_iff in H as [? _]. }
  assert (H0 : Ascii.eqb c "0" = false).
  { simpl in H. apply orb_false_iff in H as [_ H].
    now apply orb_false_iff in H as [? _]. }
  unfold str_int, NilZero.string_of_int, NilZero.string_of_uint.
  destruct (Z.to_int n) as [u|u]; destruct u; simpl;
    rewrite ?Hm, ?H0; simpl; auto;
    match goal with
    | |- context [NilEmpty.string_of_uint ?v] => rewrite (U v H)
    end; rewrite ?orb_false_r; simpl in H;
    repeat (apply orb_false_iff in H; destruct H as [? H]); assumption.
Qed.

Lemma str_int_inj (n m : Z) : str_int n = str_int m -> n = m.
Proof.
  intros E. pose proof (parse_str_int n) as Hn.
  rewrite E, parse_str_int in Hn. now injection Hn.
Qed.

(** Replacing a one-character pattern leaves no such character behind. *)
Lemma replace_char_gone (c : ascii) (new s : string) :
  has_char c new = false ->
  has_char c (replace (String c EmptyString) new s) = false.
Proof.
  intros Hn. unfold replace.
  induction s as [|d s IH]; simpl; [reflexivity|].
  destruct (Ascii.eqb c d) eqn:E; simpl.
  - now rewrite has_char_append, Hn, IH.
  - now rewrite E, IH.
Qed.

End MoreStrings.

(** ** Reading the report back *)

(** The report, cut at the space before the exit code. *)
Lemma report_text_cut (r : CompletedProcess) :
  report_text r =
    ("STDOUT:" ++ nl ++ stdout r ++ nl ++ nl ++ "STDERR:" ++ nl ++
     stderr r ++ nl ++ nl ++ "Return code:") ++
    String " " (str_int (returncode r) ++ nl).
Proof. rewrite report_text_blocks, !append_assoc. reflexivity. Qed.

(** X1.  The exit code can always be read back from the report: two results
    that print the same report have the same exit code. *)
Theorem report_determines_returncode (r1 r2 : CompletedProcess) :
  report_text r1 = report_text r2 -> returncode r1 = returncode r2.
Proof.
  rewrite !report_text_cut. intros E.
  apply split_at_last in E as [_ E].
  - change nl with (String LF EmptyString) in E.
    apply split_at_last in E as [E _]; [now apply str_int_inj | reflexivity ..].
  - rewrite has_char_append, str_int_chars; reflexivity.
  - rewrite has_char_append, str_int_chars; reflexivity.
Qed.

Lemma report_determines_returncode_witness :
  returncode {| args := ["a"]; returncode := 3;
                stdout := "x"; stderr := "y" |} =
  returncode {| args := ["b"; "c"]; returncode := 3;
                stdout := "x"; stderr := "y" |}.
Proof.
  apply (report_determines_returncode
           {| args := ["a"]; returncode := 3; stdout := "x"; stderr := "y" |}
           {| args := ["b"; "c"]; returncode := 3;
              stdout := "x"; stderr := "y" |}).
  reflexivity.
Defined.

(** X2.  The two streams cannot be read back: a standard output that holds
    the text "\n\nSTDERR:\n" prints like a shorter standard output followed by
    a longer standard error, for every choice of the three pieces. *)
Theorem report_streams_ambiguous (a b c : string) (code : Z)
  (argv : list string) :
  let sep := nl ++ nl ++ "STDERR:" ++ nl in
  report_text {| args := argv; returncode := code;
                 stdout := a ++ sep ++ b; stderr := c |} =
  report_text {| args := argv; returncode := code;
                 stdout := a; stderr := b ++ sep ++ c |}
  /\ a ++ sep ++ b <> a.
Proof.
  cbv zeta. split.
  - rewrite !report_text_blocks; cbn [stdout stderr returncode].
    rewrite !append_assoc. reflexivity.
  - intros E. apply (f_equal String.length) in E.
    rewrite !length_append in E. simpl in E. lia.
Qed.

(** X3.  Once the standard output is known the rest can be read back: two
    results with the same standard output and the same report have the same
    standard error and the same exit code. *)
Theorem report_determines_stderr (r1 r2 : CompletedProcess) :
  stdout r1 = stdout r2 ->
  report_text r1 = report_text r2 ->
  stderr r1 = stderr r2 /\ returncode r1 = returncode r2.
Proof.
  intros Ho E.
  assert (Hc : returncode r1 = returncode r2).
  { revert E. rewrite !report_text_cut. intros E.
    apply split_at_last in E as [_ E].
    - change nl with (String LF EmptyString) in E.
      apply split_at_last in E as [E _];
        [now apply str_int_inj | reflexivity ..].
    - rewrite has_char_append, str_int_chars; reflexivity.
    - rewrite has_char_append, str_int_chars; reflexivity. }
  split; [|exact Hc].
  rewrite !report_text_blocks, Ho, Hc in E.
  do 7 apply append_cancel_l in E.
  now apply append_cancel_r in E.
Qed.

Lemma report_determines_stderr_witness :
  stderr {| args := ["a"]; returncode := 3; stdout := "x"; stderr := "y" |} =
  stderr {| args := ["b"]; returncode := 3; stdout := "x"; stderr := "y" |}
  /\ returncode
       {| args := ["a"]; returncode := 3; stdout := "x"; stderr := "y" |} =
     returncode
       {| args := ["b"]; returncode := 3; stdout := "x"; stderr := "y" |}.
Proof.
  apply (report_determines_stderr
           {| args := ["a"]; returncode := 3; stdout := "x"; stderr := "y" |}
           {| args := ["b"]; returncode := 3; stdout := "x"; stderr := "y" |});
    reflexivity.
Defined.

(** ** Carriage returns *)

(** What text mode hands to the script holds no carriage return. *)
Lemma translate_newlines_no_cr (M : Type) (P : Platform M) (data o : string) :
  translate_newlines P data = Some o -> has_char CR o = false.
Proof.
  unfold translate_newlines.
  destruct (locale_decode P data) as [s|]; [|discriminate].
  intros E; injection E as <-. now apply replace_char_gone.
Qed.

(** X4.  Whatever the child wrote, the two texts of a result hold no carriage
    return, and neither does anything the wrapper prints. *)
Theorem report_has_no_carriage_return (M : Type) (P : Platform M)
  (argv : list string) (cwd : string) (w w' : World M)
  (cp : CompletedProcess) :
  runner P argv cwd w = (w', Normal cp) ->
  has_char CR (stdout cp) = false
  /\ has_char CR (stderr cp) = false
  /\ has_char CR (wrapper_stdout P argv cwd w) = false.
Proof.
  intros R.
  destruct (runner_normal_inv M P argv cwd w w' cp R)
    as (exe & rest & prog & out & err & _ & _ & _ & _ & Ho & He & _).
  apply translate_newlines_no_cr in Ho, He.
  destruct (python3_prints_report P argv cwd w w' cp R) as [-> _].
  rewrite report_text_blocks, !has_char_append, Ho, He, str_int_chars;
    repeat split; reflexivity.
Qed.

Lemma report_has_no_carriage_return_witness :
  has_char CR (stdout {| args := ["printf"; "a" ++ crlf ++ cr ++ "b"];
                         returncode := 0;
                         stdout := "a" ++ nl ++ nl ++ "b";
                         stderr := EmptyString |}) = false
  /\ has_char CR (stderr {| args := ["printf"; "a" ++ crlf ++ cr ++ "b"];
                            returncode := 0;
                            stdout := "a" ++ nl ++ nl ++ "b";
                            stderr := EmptyString |}) = false
  /\ has_char CR
       (wrapper_stdout Posix.platform ["printf"; "a" ++ crlf ++ cr ++ "b"]
          "/tmp/work" Posix.boot) = false.
Proof.
  apply (report_has_no_carriage_return Posix.Fs Posix.platform
           ["printf"; "a" ++ crlf ++ cr ++ "b"] "/tmp/work" Posix.boot
           {| machine := Posix.fs0; launched := 1; live := 0 |}).
  reflexivity.
Defined.

(** ** When the child's text is reported as it is *)

(** X9.  For a child that is started, exits and whose output decodes, the
    standard output of the result is the text the child wrote exactly when
    that text holds no carriage return. *)
Theorem stdout_verbatim_iff_no_cr (M : Type) (P : Platform M) (exe : string)
  (rest : list string) (cwd : string) (w : World M) (prog : Program M)
  (out err S e : string) (code : Z) (after : M) :
  lookup_path P (machine w) cwd = Directory ->
  resolve P (machine w) cwd exe = Some prog ->
  prog (exe :: rest) cwd (launched w) (machine w) =
    Exits out err code after ->
  locale_decode P out = Some S ->
  translate_newlines P err = Some e ->
  exists (w' : World M) (cp : CompletedProcess),
    runner P (exe :: rest) cwd w = (w', Normal cp)
    /\ (stdout cp = S <-> has_char CR S = false).
Proof.
  intros Hd Hr Hp HS He.
  assert (Ho : translate_newlines P out =
               Some (replace cr nl (replace crlf nl S))).
  { unfold translate_newlines. now rewrite HS. }
  eexists; eexists; split.
  - exact (runner_exits P exe rest cwd w prog out err _ e code after
             Hd Hr Hp Ho He).
  - simpl. split.
    + intros E. rewrite <- E. now apply replace_char_gone.
    + apply universal_newlines_id.
Qed.

Lemma stdout_verbatim_iff_no_cr_witness :
  exists (w' : World Posix.Fs) (cp : CompletedProcess),
    runner Posix.platform ["printf"; "a" ++ cr ++ "b"] "/tmp/work"
      Posix.boot = (w', Normal cp)
    /\ (stdout cp = "a" ++ cr ++ "b" <->
        has_char CR ("a" ++ cr ++ "b") = false).
Proof.
  apply (stdout_verbatim_iff_no_cr Posix.Fs Posix.platform "printf"
           ["a" ++ cr ++ "b"] "/tmp/work" Posix.boot Posix.printf_s
           ("a" ++ cr ++ "b") EmptyString ("a" ++ cr ++ "b") EmptyString
           0 Posix.fs0);
    reflexivity.
Defined.
